(** * Stopwatch_Design: the timekeeping and mode-control logic of main.c

    A shallow embedding of [Stopwatch_Design/main.c] (TM4C123G stopwatch lab):
    the two button handlers, the Timer 0A periodic task and the routine that
    projects the counters into the digit array of the seven-segment display.
    All the globals of main.c are [uint8_t]; they are modelled as [Z] with the
    wrap-around of every arithmetic store written out ([u8]). *)

From Stdlib Require Import ZArith NArith Lia Bool.
From stdpp Require Import list.

Local Open Scope Z_scope.

(** ** Machine integers *)

(** Conversion of an [int] result to [uint8_t] on assignment. *)
Definition u8 (z : Z) : Z := z mod 256.

(** The values a [uint8_t] object can hold. *)
Definition is_u8 (z : Z) : Prop := 0 <= z < 256.

(** ** The RGB indicator *)

(** Modelled from the spec: the colour constants [RGB_LED_OFF], [RGB_LED_RED]
    and [RGB_LED_GREEN] are declared in GPIO.h, which is not part of the
    sources at hand; the indicator is a tri-state selector (off, red, green). *)
Inductive rgb_color : Set :=
| RGB_LED_OFF
| RGB_LED_RED
| RGB_LED_GREEN.

(** ** Global state of main.c *)

(** One field per file-scope variable, in declaration order, plus the last
    colour handed to [RGB_LED_Output] ([None] until the program writes one). *)
Record state : Set := mkState {
  counter : Z;
  ms_elapsed : Z;
  milliseconds : Z;
  seconds : Z;
  minutes : Z;
  start_stopwatch : Z;
  reset_stopwatch : Z;
  rgb_led : option rgb_color
}.

Definition set_counter (v : Z) (s : state) : state :=
  mkState v (ms_elapsed s) (milliseconds s) (seconds s) (minutes s)
          (start_stopwatch s) (reset_stopwatch s) (rgb_led s).

Definition set_ms_elapsed (v : Z) (s : state) : state :=
  mkState (counter s) v (milliseconds s) (seconds s) (minutes s)
          (start_stopwatch s) (reset_stopwatch s) (rgb_led s).

Definition set_milliseconds (v : Z) (s : state) : state :=
  mkState (counter s) (ms_elapsed s) v (seconds s) (minutes s)
          (start_stopwatch s) (reset_stopwatch s) (rgb_led s).

Definition set_seconds (v : Z) (s : state) : state :=
  mkState (counter s) (ms_elapsed s) (milliseconds s) v (minutes s)
          (start_stopwatch s) (reset_stopwatch s) (rgb_led s).

Definition set_minutes (v : Z) (s : state) : state :=
  mkState (counter s) (ms_elapsed s) (milliseconds s) (seconds s) v
          (start_stopwatch s) (reset_stopwatch s) (rgb_led s).

Definition set_start_stopwatch (v : Z) (s : state) : state :=
  mkState (counter s) (ms_elapsed s) (milliseconds s) (seconds s) (minutes s)
          v (reset_stopwatch s) (rgb_led s).

Definition set_reset_stopwatch (v : Z) (s : state) : state :=
  mkState (counter s) (ms_elapsed s) (milliseconds s) (seconds s) (minutes s)
          (start_stopwatch s) v (rgb_led s).

(** [RGB_LED_Output(c)]: the only effect kept is the colour now shown. *)
Definition RGB_LED_Output (c : rgb_color) (s : state) : state :=
  mkState (counter s) (ms_elapsed s) (milliseconds s) (seconds s) (minutes s)
          (start_stopwatch s) (reset_stopwatch s) (Some c).

(** The static initialisers of main.c: every global starts at 0. *)
Definition init_state : state := mkState 0 0 0 0 0 0 0 None.

(** ** PMOD_BTN_Handler (main.c, lines 107-147) *)

Definition PMOD_BTN_Handler (pmod_btn_status : Z) (s : state) : state :=
  if pmod_btn_status =? 0x04 then          (* BTN0 *)
    set_start_stopwatch 0x01 (RGB_LED_Output RGB_LED_GREEN s)
  else if pmod_btn_status =? 0x08 then     (* BTN1 *)
    set_start_stopwatch 0x00 (RGB_LED_Output RGB_LED_RED s)
  else if pmod_btn_status =? 0x10 then     (* BTN2 *)
    set_reset_stopwatch 0x01 (RGB_LED_Output RGB_LED_OFF s)
  else if pmod_btn_status =? 0x20 then     (* BTN3: body commented out *)
    s
  else                                     (* default *)
    s.

(** ** EduBase_Button_Handler (main.c, lines 161-196) *)

Definition EduBase_Button_Handler (edubase_button_status : Z) (s : state)
  : state :=
  if edubase_button_status =? 0x08 then
    if counter s >=? 15 then set_counter 0 s
    else set_counter (u8 (counter s + 1)) s
  else if edubase_button_status =? 0x04 then
    if counter s <=? 0 then set_counter 15 s
    else set_counter (u8 (counter s - 1)) s
  else
    s.

(** ** Calculate_Stopwatch_Value (main.c, lines 212-227) *)

(** The caller's array is a list updated in place at indices 0..3; [%] and
    [/] are C's truncating operators on the promoted operands. *)
Definition Calculate_Stopwatch_Value (s : state) (stopwatch_value : list Z)
  : list Z :=
  let a := <[0%nat := milliseconds s]> stopwatch_value in
  let a := <[1%nat := u8 (Z.rem (seconds s) 10)]> a in
  let a := <[2%nat := u8 (Z.quot (seconds s) 10)]> a in
  <[3%nat := minutes s]> a.

(** ** Timer_0A_Periodic_Task (main.c, lines 243-282) *)

(** The block guarded by [reset_stopwatch == 0x01] (lines 274-279). *)
Definition apply_reset (s : state) : state :=
  let s := set_reset_stopwatch 0x00 s in
  let s := set_start_stopwatch 0x00 s in
  let s := set_ms_elapsed 0 s in
  let s := set_milliseconds 0 s in
  let s := set_seconds 0 s in
  set_minutes 0 s.

Definition Timer_0A_Periodic_Task (s : state) : state :=
  if start_stopwatch s =? 0x01 then
    let s := set_ms_elapsed (u8 (ms_elapsed s + 1)) s in
    let s := if ms_elapsed s >? 99
             then set_milliseconds (u8 (milliseconds s + 1)) (set_ms_elapsed 0 s)
             else s in
    let s := if milliseconds s >? 9
             then set_seconds (u8 (seconds s + 1)) (set_milliseconds 0 s)
             else s in
    let s := if seconds s >? 59
             then set_minutes (u8 (minutes s + 1)) (set_seconds 0 s)
             else s in
    let s := if minutes s >? 9
             then set_minutes 0 s
             else s in
    if reset_stopwatch s =? 0x01 then apply_reset s else s
  else
    s.

(** The statements of the guarded block, one definition per statement, in
    source order; [task_by_statement] proves the task is their composition. *)

(** Line 247. *)
Definition count_period (s : state) : state :=
  set_ms_elapsed (u8 (ms_elapsed s + 1)) s.

(** Lines 248-252. *)
Definition carry_ms_elapsed (s : state) : state :=
  if ms_elapsed s >? 99
  then set_milliseconds (u8 (milliseconds s + 1)) (set_ms_elapsed 0 s)
  else s.

(** Lines 254-258. *)
Definition carry_milliseconds (s : state) : state :=
  if milliseconds s >? 9
  then set_seconds (u8 (seconds s + 1)) (set_milliseconds 0 s)
  else s.

(** Lines 260-264. *)
Definition carry_seconds (s : state) : state :=
  if seconds s >? 59
  then set_minutes (u8 (minutes s + 1)) (set_seconds 0 s)
  else s.

(** Lines 266-270. *)
Definition wrap_minutes (s : state) : state :=
  if minutes s >? 9 then set_minutes 0 s else s.

(** Lines 272-280. *)
Definition check_reset (s : state) : state :=
  if reset_stopwatch s =? 0x01 then apply_reset s else s.

(** [n] consecutive timer interrupts with nothing in between. *)
Definition ticks (n : N) (s : state) : state :=
  N.iter n Timer_0A_Periodic_Task s.

(** The guard under which line 251 ([milliseconds++]) runs in a tick taken
    from [s]: the task is enabled and the incremented [ms_elapsed] exceeds 99. *)
Definition tenth_rollover (s : state) : bool :=
  (start_stopwatch s =? 0x01) && (u8 (ms_elapsed s + 1) >? 99).

(** How many of the [n] ticks taken from [s] execute [milliseconds++]. *)
Definition ms_increments (n : N) (s : state) : N :=
  fst (N.iter n
         (fun p : N * state =>
            ((if tenth_rollover (snd p) then N.succ (fst p) else fst p),
             Timer_0A_Periodic_Task (snd p)))
         (0%N, s)).

(** ** Interrupt sources and reachable states *)

Inductive event : Set :=
| Timer_0A_IRQ
| PMOD_BTN_IRQ (pmod_btn_status : Z)
| EduBase_Button_IRQ (edubase_button_status : Z).

(** Handlers take a [uint8_t] status. *)
Definition event_ok (e : event) : Prop :=
  match e with
  | Timer_0A_IRQ => True
  | PMOD_BTN_IRQ c => is_u8 c
  | EduBase_Button_IRQ c => is_u8 c
  end.

Definition dispatch (e : event) (s : state) : state :=
  match e with
  | Timer_0A_IRQ => Timer_0A_Periodic_Task s
  | PMOD_BTN_IRQ c => PMOD_BTN_Handler c s
  | EduBase_Button_IRQ c => EduBase_Button_Handler c s
  end.

(** States the program can be observed in: the initial one, and any state
    obtained by running one more handler to completion. *)
Inductive reachable : state -> Prop :=
| reachable_init : reachable init_state
| reachable_step e s : event_ok e -> reachable s -> reachable (dispatch e s).

(** ** Predicates of the data model *)

(** Every field holds a [uint8_t] value. *)
Definition u8_state (s : state) : Prop :=
  is_u8 (counter s) /\ is_u8 (ms_elapsed s) /\ is_u8 (milliseconds s) /\
  is_u8 (seconds s) /\ is_u8 (minutes s) /\
  is_u8 (start_stopwatch s) /\ is_u8 (reset_stopwatch s).

(** The ranges of the four time counters. *)
Definition time_bounds (s : state) : Prop :=
  0 <= ms_elapsed s <= 99 /\ 0 <= milliseconds s <= 9 /\
  0 <= seconds s <= 59 /\ 0 <= minutes s <= 9.

(** The ranges of the data model: time counters and display counter. *)
Definition bounds (s : state) : Prop :=
  time_bounds s /\ 0 <= counter s <= 15.

(** Both flags only ever hold 0 or 1. *)
Definition flags_ok (s : state) : Prop :=
  (start_stopwatch s = 0 \/ start_stopwatch s = 1) /\
  (reset_stopwatch s = 0 \/ reset_stopwatch s = 1).

(** [s'] differs from [s] in the four time counters at most. *)
Definition same_controls (s s' : state) : Prop :=
  counter s' = counter s /\ start_stopwatch s' = start_stopwatch s /\
  reset_stopwatch s' = reset_stopwatch s /\ rgb_led s' = rgb_led s.

(** Elapsed time in timer periods, as the four counters encode it. *)
Definition elapsed (s : state) : Z :=
  ms_elapsed s + 100 * milliseconds s + 1000 * seconds s + 60000 * minutes s.

(** Ten minutes, in timer periods. *)
Definition full_wrap : Z := 600000.

(** ** main (main.c, lines 62-93) *)

(** The four statements of [Calculate_Stopwatch_Value], each of which reads
    one global once; an interrupt can be served between any two of them. *)

(** Line 215. *)
Definition store_milliseconds (s : state) (a : list Z) : list Z :=
  <[0%nat := milliseconds s]> a.

(** Line 219. *)
Definition store_seconds_low (s : state) (a : list Z) : list Z :=
  <[1%nat := u8 (Z.rem (seconds s) 10)]> a.

(** Line 223. *)
Definition store_seconds_high (s : state) (a : list Z) : list Z :=
  <[2%nat := u8 (Z.quot (seconds s) 10)]> a.

(** Line 226. *)
Definition store_minutes (s : state) (a : list Z) : list Z :=
  <[3%nat := minutes s]> a.

(** Where the endless loop of [main] stands: the statement of the formatter
    it executes next. After line 226 the array goes to the display driver
    (line 91), which only reads it, and the loop is back at line 215. *)
Inductive loop_pc : Set :=
| at_line_215
| at_line_219
| at_line_223
| at_line_226.

(** One statement of the loop, on main's local array [stopwatch_value]. *)
Definition main_statement (pc : loop_pc) (s : state) (a : list Z)
  : loop_pc * list Z :=
  match pc with
  | at_line_215 => (at_line_219, store_milliseconds s a)
  | at_line_219 => (at_line_223, store_seconds_low s a)
  | at_line_223 => (at_line_226, store_seconds_high s a)
  | at_line_226 => (at_line_215, store_minutes s a)
  end.

(** Configurations of the whole program: [main] enters its loop with the
    array initialised to zeros (line 86); from then on either an interrupt
    handler runs to completion or the loop executes its next statement. *)
Inductive main_reachable : loop_pc -> state -> list Z -> Prop :=
| main_entry : main_reachable at_line_215 init_state [0; 0; 0; 0]
| main_interrupt e pc s a :
    event_ok e -> main_reachable pc s a -> main_reachable pc (dispatch e s) a
| main_next pc s a :
    main_reachable pc s a ->
    main_reachable (fst (main_statement pc s a)) s (snd (main_statement pc s a)).

(** A schedule of the program: at each point either an interrupt is served
    or the loop executes its next statement. *)
Inductive main_action : Set :=
| serve (e : event)
| run_statement.

Definition action_ok (act : main_action) : Prop :=
  match act with
  | serve e => event_ok e
  | run_statement => True
  end.

(** Program counter of the loop, globals, and main's array. *)
Definition main_config : Set := (loop_pc * state * list Z)%type.

Definition main_step (act : main_action) (cfg : main_config) : main_config :=
  let '(pc, s, a) := cfg in
  match act with
  | serve e => (pc, dispatch e s, a)
  | run_statement =>
      (fst (main_statement pc s a), s, snd (main_statement pc s a))
  end.

(** The configuration a schedule leads to, actions taken left to right. *)
Definition main_run (schedule : list main_action) (cfg : main_config)
  : main_config :=
  fold_left (fun c act => main_step act c) schedule cfg.

(** A value the seven-segment driver can show in one position. *)
Definition is_digit (d : Z) : Prop := 0 <= d <= 9.

(** The four time counters of two states agree. *)
Definition same_time (s s' : state) : Prop :=
  ms_elapsed s' = ms_elapsed s /\ milliseconds s' = milliseconds s /\
  seconds s' = seconds s /\ minutes s' = minutes s.

(** * Proofs *)

(** ** Proof automation *)

(** Unfold field reads of explicit states and nothing else. *)
Ltac fields :=
  cbv [counter ms_elapsed milliseconds seconds minutes start_stopwatch
       reset_stopwatch rgb_led set_counter set_ms_elapsed set_milliseconds
       set_seconds set_minutes set_start_stopwatch set_reset_stopwatch
       RGB_LED_Output apply_reset] in *.

(** Split on the next comparison the code tests. *)
Ltac test_case :=
  match goal with
  | |- context [?a =? ?b] => destruct (Z.eqb_spec a b)
  | |- context [?a >? ?b] => destruct (Z.gtb_spec a b)
  | |- context [?a >=? ?b] => destruct (Z.geb_spec a b)
  | |- context [?a <=? ?b] => destruct (Z.leb_spec a b)
  end; fields.

Lemma u8_small (z : Z) : is_u8 z -> u8 z = z.
Proof. intros Hz. unfold u8. apply Z.mod_small. exact Hz. Qed.

Lemma u8_range (z : Z) : is_u8 (u8 z).
Proof. unfold is_u8, u8. apply Z.mod_pos_bound. lia. Qed.

(** ** The periodic task, stopped *)

Lemma tick_stopped (s : state) :
  start_stopwatch s <> 1 -> Timer_0A_Periodic_Task s = s.
Proof.
  intros Hstop. unfold Timer_0A_Periodic_Task.
  destruct (Z.eqb_spec (start_stopwatch s) 1); [contradiction | reflexivity].
Qed.

Lemma ticks_succ (n : N) (s : state) :
  ticks (N.succ n) s = Timer_0A_Periodic_Task (ticks n s).
Proof. unfold ticks. apply N.iter_succ. Qed.

Lemma ticks_stopped (n : N) (s : state) :
  start_stopwatch s <> 1 -> ticks n s = s.
Proof.
  intros Hstop. induction n as [|n IH] using N.peano_ind.
  - reflexivity.
  - rewrite ticks_succ, IH. now apply tick_stopped.
Qed.

(** ** Reachability, handler by handler *)

Lemma reachable_tick (s : state) :
  reachable s -> reachable (Timer_0A_Periodic_Task s).
Proof. intros Hs. exact (reachable_step Timer_0A_IRQ s I Hs). Qed.

Lemma reachable_pmod (code : Z) (s : state) :
  is_u8 code -> reachable s -> reachable (PMOD_BTN_Handler code s).
Proof. intros Hc Hs. exact (reachable_step (PMOD_BTN_IRQ code) s Hc Hs). Qed.

Lemma reachable_edubase (code : Z) (s : state) :
  is_u8 code -> reachable s -> reachable (EduBase_Button_Handler code s).
Proof.
  intros Hc Hs. exact (reachable_step (EduBase_Button_IRQ code) s Hc Hs).
Qed.

Create HintDb stopwatch.
#[local] Hint Resolve reachable_init reachable_tick reachable_pmod
  reachable_edubase : stopwatch.
#[local] Hint Extern 1 (is_u8 _) => (unfold is_u8; lia) : stopwatch.

(** ** The periodic task, statement by statement *)

Lemma task_by_statement (s : state) :
  Timer_0A_Periodic_Task s =
  if start_stopwatch s =? 1
  then check_reset
         (wrap_minutes
            (carry_seconds
               (carry_milliseconds (carry_ms_elapsed (count_period s)))))
  else s.
Proof. reflexivity. Qed.

(** The counting statements leave the display counter, both flags and the
    indicator alone. *)
Lemma counting_keeps_controls (s : state) :
  same_controls s
    (wrap_minutes
       (carry_seconds
          (carry_milliseconds (carry_ms_elapsed (count_period s))))).
Proof.
  assert (Htrans : forall a b c,
             same_controls a b -> same_controls b c -> same_controls a c).
  { unfold same_controls. intros a b c (-> & -> & -> & ->) H. exact H. }
  assert (H1 : forall a, same_controls a (count_period a)).
  { intros a. unfold same_controls, count_period. fields. auto. }
  assert (H2 : forall a, same_controls a (carry_ms_elapsed a)).
  { intros a. unfold same_controls, carry_ms_elapsed.
    destruct (ms_elapsed a >? 99); fields; auto. }
  assert (H3 : forall a, same_controls a (carry_milliseconds a)).
  { intros a. unfold same_controls, carry_milliseconds.
    destruct (milliseconds a >? 9); fields; auto. }
  assert (H4 : forall a, same_controls a (carry_seconds a)).
  { intros a. unfold same_controls, carry_seconds.
    destruct (seconds a >? 59); fields; auto. }
  assert (H5 : forall a, same_controls a (wrap_minutes a)).
  { intros a. unfold same_controls, wrap_minutes.
    destruct (minutes a >? 9); fields; auto. }
  eauto.
Qed.

(** ** The periodic task with a reset pending *)

Lemma tick_reset (s : state) :
  start_stopwatch s = 1 -> reset_stopwatch s = 1 ->
  Timer_0A_Periodic_Task s = mkState (counter s) 0 0 0 0 0 0 (rgb_led s).
Proof.
  intros Hrun Hreset. rewrite task_by_statement, Hrun.
  change (1 =? 1) with true; cbv iota.
  destruct (counting_keeps_controls s) as (Hc & _ & Hrs & Hled).
  unfold check_reset. rewrite Hrs, Hreset.
  change (1 =? 1) with true; cbv iota.
  unfold apply_reset. fields. now rewrite Hc, Hled.
Qed.

(** ** What the PMOD buttons do to the state *)

Lemma pmod_start (s : state) :
  PMOD_BTN_Handler 0x04 s =
  set_start_stopwatch 1 (RGB_LED_Output RGB_LED_GREEN s).
Proof. reflexivity. Qed.

Lemma pmod_reset (s : state) :
  PMOD_BTN_Handler 0x10 s =
  set_reset_stopwatch 1 (RGB_LED_Output RGB_LED_OFF s).
Proof. reflexivity. Qed.

(** C1: with the start flag clear, a tick changes nothing at all; so a reset
    requested while stopped stays pending, with the counters as they were,
    across any number of ticks, and is applied by the first tick taken after
    the start button has set the flag again. *)
Theorem stopped_tick_is_noop (s : state) :
  start_stopwatch s <> 1 ->
  Timer_0A_Periodic_Task s = s /\
  (forall n : N,
      let pending := PMOD_BTN_Handler 0x10 s in
      ticks n pending = pending /\
      reset_stopwatch (ticks n pending) = 1 /\
      start_stopwatch (ticks n pending) = start_stopwatch s /\
      ms_elapsed (ticks n pending) = ms_elapsed s /\
      milliseconds (ticks n pending) = milliseconds s /\
      seconds (ticks n pending) = seconds s /\
      minutes (ticks n pending) = minutes s /\
      Timer_0A_Periodic_Task (PMOD_BTN_Handler 0x04 (ticks n pending)) =
      mkState (counter s) 0 0 0 0 0 0 (Some RGB_LED_GREEN)).
Proof.
  intros Hstop. split; [now apply tick_stopped|].
  intros n pending.
  assert (Hfix : ticks n pending = pending).
  { apply ticks_stopped. subst pending. rewrite pmod_reset. fields. exact Hstop. }
  rewrite Hfix. subst pending. rewrite pmod_reset, pmod_start.
  repeat split.
  apply tick_reset; reflexivity.
Qed.

Lemma stopped_tick_is_noop_witness :
  let s := mkState 3 42 7 45 3 0 0 (Some RGB_LED_RED) in
  Timer_0A_Periodic_Task s = s /\
  ticks 5000 (PMOD_BTN_Handler 0x10 s) = mkState 3 42 7 45 3 0 1 (Some RGB_LED_OFF).
Proof.
  intros s.
  destruct (stopped_tick_is_noop s ltac:(discriminate)) as [H1 H2].
  split; [exact H1|].
  destruct (H2 5000%N) as [H3 _]. exact H3.
Defined.

(** C2: in one tick of a running stopwatch within its ranges, with no reset
    pending, the carries cascade as far as they have to, all in that one
    pass: the sub-tick counter alone advances below 99; at 99 it rolls over
    into the tenths, at 9 tenths into the seconds, at 59 seconds into the
    minutes, and at 9 minutes the minutes wrap to 0. In particular one tick
    from 9:59.9 with 99 sub-ticks leaves all four counters at 0. *)
Theorem cascade_resolves_in_one_tick (s : state) :
  time_bounds s -> start_stopwatch s = 1 -> reset_stopwatch s <> 1 ->
  Timer_0A_Periodic_Task s =
    (if ms_elapsed s <? 99 then
       set_ms_elapsed (ms_elapsed s + 1) s
     else if milliseconds s <? 9 then
       set_milliseconds (milliseconds s + 1) (set_ms_elapsed 0 s)
     else if seconds s <? 59 then
       set_seconds (seconds s + 1) (set_milliseconds 0 (set_ms_elapsed 0 s))
     else if minutes s <? 9 then
       set_minutes (minutes s + 1)
         (set_seconds 0 (set_milliseconds 0 (set_ms_elapsed 0 s)))
     else
       set_minutes 0 (set_seconds 0 (set_milliseconds 0 (set_ms_elapsed 0 s)))) /\
  (ms_elapsed s = 99 -> milliseconds s = 9 -> seconds s = 59 ->
   minutes s = 9 ->
   Timer_0A_Periodic_Task s =
   mkState (counter s) 0 0 0 0 1 (reset_stopwatch s) (rgb_led s)).
Proof.
  assert (Hform : forall c e ms sec mn rs led,
             0 <= e <= 99 -> 0 <= ms <= 9 -> 0 <= sec <= 59 -> 0 <= mn <= 9 ->
             rs <> 1 ->
             Timer_0A_Periodic_Task (mkState c e ms sec mn 1 rs led) =
             if e <? 99 then mkState c (e + 1) ms sec mn 1 rs led
             else if ms <? 9 then mkState c 0 (ms + 1) sec mn 1 rs led
             else if sec <? 59 then mkState c 0 0 (sec + 1) mn 1 rs led
             else if mn <? 9 then mkState c 0 0 0 (mn + 1) 1 rs led
             else mkState c 0 0 0 0 1 rs led).
  { intros c e ms sec mn rs led He Hms Hsec Hmn Hrs.
    rewrite task_by_statement. fields.
    change (1 =? 1) with true; cbv iota.
    unfold count_period; fields.
    rewrite (u8_small (e + 1)) by (unfold is_u8; lia).
    unfold carry_ms_elapsed; test_case;
      try rewrite (u8_small (ms + 1)) by (unfold is_u8; lia);
      (unfold carry_milliseconds; test_case);
      try rewrite (u8_small (sec + 1)) by (unfold is_u8; lia);
      (unfold carry_seconds; test_case);
      try rewrite (u8_small (mn + 1)) by (unfold is_u8; lia);
      (unfold wrap_minutes; test_case);
      unfold check_reset; fields;
      (destruct (Z.eqb_spec rs 1); [contradiction|]);
      repeat match goal with
             | |- context [?x <? ?y] => destruct (Z.ltb_spec x y)
             end;
      try lia; reflexivity. }
  destruct s as [c e ms sec mn st rs led]. unfold time_bounds. fields.
  intros (He & Hms & Hsec & Hmn) -> Hrs.
  rewrite (Hform c e ms sec mn rs led He Hms Hsec Hmn Hrs).
  split; [reflexivity|]. intros -> -> -> ->. reflexivity.
Qed.

Lemma cascade_resolves_in_one_tick_witness :
  Timer_0A_Periodic_Task (mkState 3 99 9 30 5 1 0 (Some RGB_LED_GREEN)) =
    mkState 3 0 0 31 5 1 0 (Some RGB_LED_GREEN) /\
  Timer_0A_Periodic_Task (mkState 3 99 4 30 5 1 0 (Some RGB_LED_GREEN)) =
    mkState 3 0 5 30 5 1 0 (Some RGB_LED_GREEN) /\
  Timer_0A_Periodic_Task (mkState 3 99 9 59 9 1 0 (Some RGB_LED_GREEN)) =
    mkState 3 0 0 0 0 1 0 (Some RGB_LED_GREEN).
Proof.
  assert (Hb : forall e ms sec mn,
             0 <= e <= 99 -> 0 <= ms <= 9 -> 0 <= sec <= 59 -> 0 <= mn <= 9 ->
             time_bounds (mkState 3 e ms sec mn 1 0 (Some RGB_LED_GREEN)))
    by (intros; unfold time_bounds; fields; lia).
  split; [|split].
  - refine (proj1 (cascade_resolves_in_one_tick
                     (mkState 3 99 9 30 5 1 0 (Some RGB_LED_GREEN)) _ _ _));
      [apply Hb; lia | reflexivity | discriminate].
  - refine (proj1 (cascade_resolves_in_one_tick
                     (mkState 3 99 4 30 5 1 0 (Some RGB_LED_GREEN)) _ _ _));
      [apply Hb; lia | reflexivity | discriminate].
  - refine (proj2 (cascade_resolves_in_one_tick
                     (mkState 3 99 9 59 9 1 0 (Some RGB_LED_GREEN)) _ _ _)
                  _ _ _ _);
      [apply Hb; lia | reflexivity | discriminate | reflexivity ..].
Defined.

(** C3: a tick taken while running with a reset pending ends with both flags
    clear and the four time counters at zero, whatever the counters were and
    whichever rollovers happened earlier in that tick. *)
Theorem reset_wins_the_tick (s : state) :
  start_stopwatch s = 1 -> reset_stopwatch s = 1 ->
  let s' := Timer_0A_Periodic_Task s in
  reset_stopwatch s' = 0 /\ start_stopwatch s' = 0 /\
  ms_elapsed s' = 0 /\ milliseconds s' = 0 /\ seconds s' = 0 /\ minutes s' = 0.
Proof.
  intros Hrun Hreset s'. subst s'. rewrite (tick_reset s Hrun Hreset).
  fields. repeat split.
Qed.

Lemma reset_wins_the_tick_witness :
  let s' := Timer_0A_Periodic_Task (mkState 5 99 9 59 9 1 1 None) in
  reset_stopwatch s' = 0 /\ start_stopwatch s' = 0 /\
  ms_elapsed s' = 0 /\ milliseconds s' = 0 /\ seconds s' = 0 /\ minutes s' = 0.
Proof.
  apply (reset_wins_the_tick (mkState 5 99 9 59 9 1 1 None)); reflexivity.
Defined.

(** ** The periodic task, running with no reset pending *)

(** One tick advances the encoded time by one period modulo ten minutes, keeps
    the counters in range and touches nothing else. *)
Lemma tick_running (s : state) :
  time_bounds s -> start_stopwatch s = 1 -> reset_stopwatch s <> 1 ->
  let s' := Timer_0A_Periodic_Task s in
  time_bounds s' /\
  elapsed s' = (elapsed s + 1) mod full_wrap /\
  counter s' = counter s /\ start_stopwatch s' = 1 /\
  reset_stopwatch s' = reset_stopwatch s /\ rgb_led s' = rgb_led s.
Proof.
  intros Hb Hrun Hrs. cbv zeta.
  destruct (counting_keeps_controls s) as (Hc & Hst & Hrs' & Hled).
  rewrite task_by_statement, Hrun in *.
  change (1 =? 1) with true; cbv iota.
  unfold check_reset. rewrite Hrs'.
  destruct (Z.eqb_spec (reset_stopwatch s) 1); [contradiction|].
  split; [|split; [|now repeat split]]; clear Hc Hst Hrs' Hled;
    unfold time_bounds, elapsed, full_wrap in *;
    destruct s as [c e ms sec mn st rs led]; fields;
    destruct Hb as (He & Hms & Hsec & Hmn);
    unfold count_period; fields;
    rewrite (u8_small (e + 1)) by (unfold is_u8; lia);
    unfold carry_ms_elapsed; test_case;
    try rewrite (u8_small (ms + 1)) by (unfold is_u8; lia);
    unfold carry_milliseconds; test_case;
    try rewrite (u8_small (sec + 1)) by (unfold is_u8; lia);
    unfold carry_seconds; test_case;
    try rewrite (u8_small (mn + 1)) by (unfold is_u8; lia);
    unfold wrap_minutes; test_case;
    try lia; Z.div_mod_to_equations; lia.
Qed.

(** ** Preservation of the ranges *)

Lemma tick_time_bounds (s : state) :
  time_bounds s -> time_bounds (Timer_0A_Periodic_Task s).
Proof.
  intros Hb.
  destruct (Z.eq_dec (start_stopwatch s) 1) as [Hrun|Hstop].
  - destruct (Z.eq_dec (reset_stopwatch s) 1) as [Hreset|Hnoreset].
    + rewrite (tick_reset s Hrun Hreset). unfold time_bounds. fields. lia.
    + apply (tick_running s Hb Hrun Hnoreset).
  - rewrite (tick_stopped s Hstop). exact Hb.
Qed.

Lemma tick_counter (s : state) :
  counter (Timer_0A_Periodic_Task s) = counter s.
Proof.
  rewrite task_by_statement.
  destruct (start_stopwatch s =? 1); [|reflexivity].
  destruct (counting_keeps_controls s) as (Hc & _).
  unfold check_reset, apply_reset. test_case; fields; exact Hc.
Qed.

Lemma tick_bounds (s : state) : bounds s -> bounds (Timer_0A_Periodic_Task s).
Proof.
  intros [Ht Hc]. split.
  - now apply tick_time_bounds.
  - rewrite tick_counter. exact Hc.
Qed.

Lemma pmod_bounds (code : Z) (s : state) :
  bounds s -> bounds (PMOD_BTN_Handler code s).
Proof.
  unfold PMOD_BTN_Handler. intros Hb.
  repeat test_case; exact Hb.
Qed.

Lemma edubase_bounds (code : Z) (s : state) :
  bounds s -> bounds (EduBase_Button_Handler code s).
Proof.
  unfold EduBase_Button_Handler, bounds, time_bounds.
  destruct s as [c e ms sec mn st rs led]; fields. intros [Ht Hc].
  repeat test_case; (split; [exact Ht|]);
    try rewrite u8_small by (unfold is_u8; lia); lia.
Qed.

Lemma dispatch_bounds (e : event) (s : state) :
  bounds s -> bounds (dispatch e s).
Proof.
  destruct e; cbn [dispatch];
    [apply tick_bounds | apply pmod_bounds | apply edubase_bounds].
Qed.

Lemma init_bounds : bounds init_state.
Proof. unfold bounds, time_bounds, init_state. fields. lia. Qed.

Lemma reachable_bounds (s : state) : reachable s -> bounds s.
Proof.
  induction 1 as [|e s _ _ IH].
  - exact init_bounds.
  - now apply dispatch_bounds.
Qed.

(** ** The fields stay [uint8_t] values and the flags stay 0 or 1 *)

Ltac u8_fields :=
  unfold u8_state in *; fields;
  repeat match goal with H : _ /\ _ |- _ => destruct H end;
  repeat match goal with |- _ /\ _ => split end;
  try assumption; try apply u8_range; unfold is_u8; lia.

Lemma tick_u8_state (s : state) :
  u8_state s -> u8_state (Timer_0A_Periodic_Task s).
Proof.
  assert (H1 : forall a, u8_state a -> u8_state (count_period a))
    by (intros a Ha; unfold count_period; u8_fields).
  assert (H2 : forall a, u8_state a -> u8_state (carry_ms_elapsed a))
    by (intros a Ha; unfold carry_ms_elapsed;
        destruct (ms_elapsed a >? 99); [u8_fields | exact Ha]).
  assert (H3 : forall a, u8_state a -> u8_state (carry_milliseconds a))
    by (intros a Ha; unfold carry_milliseconds;
        destruct (milliseconds a >? 9); [u8_fields | exact Ha]).
  assert (H4 : forall a, u8_state a -> u8_state (carry_seconds a))
    by (intros a Ha; unfold carry_seconds;
        destruct (seconds a >? 59); [u8_fields | exact Ha]).
  assert (H5 : forall a, u8_state a -> u8_state (wrap_minutes a))
    by (intros a Ha; unfold wrap_minutes;
        destruct (minutes a >? 9); [u8_fields | exact Ha]).
  assert (H6 : forall a, u8_state a -> u8_state (check_reset a))
    by (intros a Ha; unfold check_reset;
        destruct (reset_stopwatch a =? 1); [u8_fields | exact Ha]).
  intros Hs. rewrite task_by_statement.
  destruct (start_stopwatch s =? 1); auto 10.
Qed.

Lemma tick_flags_ok (s : state) :
  flags_ok s -> flags_ok (Timer_0A_Periodic_Task s).
Proof.
  intros Hf. rewrite task_by_statement.
  destruct (start_stopwatch s =? 1); [|exact Hf].
  destruct (counting_keeps_controls s) as (_ & Hst & Hrs & _).
  unfold check_reset, flags_ok in *. rewrite <- Hst, <- Hrs in Hf.
  test_case; [auto | exact Hf].
Qed.

(** X17: in every reachable state each global holds a value of its type
    [uint8_t], and both flags hold 0 or 1. *)
Lemma reachable_well_formed (s : state) :
  reachable s -> u8_state s /\ flags_ok s.
Proof.
  induction 1 as [|e s He _ [IHu IHf]].
  - unfold u8_state, flags_ok, is_u8, init_state. fields. lia.
  - destruct e as [|code|code]; cbn [dispatch].
    + split; [now apply tick_u8_state | now apply tick_flags_ok].
    + unfold PMOD_BTN_Handler.
      repeat test_case; (split; [u8_fields | unfold flags_ok in *; fields]);
        tauto.
    + unfold EduBase_Button_Handler.
      repeat test_case; (split; [u8_fields | unfold flags_ok in *; fields]);
        tauto.
Qed.

(** C4: the ranges of the data model are an invariant: they hold initially,
    every handler (timer tick, PMOD button, EduBase button, with any status
    code) preserves them, and so they hold in every reachable state. *)
Theorem bounds_invariant :
  bounds init_state /\
  (forall s : state, bounds s ->
     bounds (Timer_0A_Periodic_Task s) /\
     (forall code : Z, bounds (PMOD_BTN_Handler code s)) /\
     (forall code : Z, bounds (EduBase_Button_Handler code s))) /\
  (forall s : state, reachable s -> bounds s).
Proof.
  split; [exact init_bounds|]. split.
  - intros s Hb. split; [now apply tick_bounds|]. split; intros code.
    + now apply pmod_bounds.
    + now apply edubase_bounds.
  - exact reachable_bounds.
Qed.

Lemma bounds_invariant_witness :
  let s := mkState 15 99 9 59 9 1 0 None in
  bounds (Timer_0A_Periodic_Task s) /\
  bounds (PMOD_BTN_Handler 0x10 s) /\
  bounds (EduBase_Button_Handler 0x08 s) /\
  bounds (dispatch Timer_0A_IRQ (dispatch (PMOD_BTN_IRQ 0x04) init_state)).
Proof.
  intros s.
  destruct bounds_invariant as (_ & Hstep & Hreach).
  assert (Hs : bounds s) by (unfold bounds, time_bounds, s; fields; lia).
  destruct (Hstep s Hs) as (Htick & Hpmod & Hedu).
  split; [exact Htick|]. split; [apply Hpmod|]. split; [apply Hedu|].
  apply Hreach. cbn [dispatch]. auto with stopwatch.
Defined.

(** ** The display counter *)

(** C7: sixteen presses of the decrement button (status 0x04) take the
    counter from 0 through 15, 14, ..., 1 back to 0, and one press of the
    increment button (status 0x08) takes it from 15 to 0; the rest of the
    state is left alone. *)
Theorem display_counter_wraps (s : state) :
  N.iter 16 (EduBase_Button_Handler 0x04) (set_counter 0 s) = set_counter 0 s /\
  EduBase_Button_Handler 0x04 (set_counter 0 s) = set_counter 15 s /\
  map (fun k : N =>
         counter (N.iter k (EduBase_Button_Handler 0x04) (set_counter 0 s)))
      [1; 2; 3; 4; 5; 6; 7; 8; 9; 10; 11; 12; 13; 14; 15; 16]%N =
  [15; 14; 13; 12; 11; 10; 9; 8; 7; 6; 5; 4; 3; 2; 1; 0] /\
  EduBase_Button_Handler 0x08 (set_counter 15 s) = set_counter 0 s.
Proof.
  destruct s as [c e ms sec mn st rs led].
  repeat split; vm_compute; reflexivity.
Qed.

(** ** The digit array *)

Lemma calculate_digits (s : state) (a : list Z) :
  is_u8 (seconds s) -> length a = 4%nat ->
  Calculate_Stopwatch_Value s a =
  [milliseconds s; seconds s mod 10; seconds s / 10; minutes s].
Proof.
  intros Hsec Hlen.
  destruct a as [|a0 [|a1 [|a2 [|a3 [|a4 a]]]]]; try discriminate Hlen.
  unfold Calculate_Stopwatch_Value. cbn [list_insert insert].
  unfold is_u8 in Hsec.
  rewrite Z.rem_mod_nonneg, Z.quot_div_nonneg by lia.
  rewrite !u8_small; [reflexivity | |]; unfold is_u8.
  - split; [apply Z.div_pos; lia|].
    apply Z.div_lt_upper_bound; lia.
  - pose proof (Z.mod_pos_bound (seconds s) 10). lia.
Qed.

(** C8: on a four-element array the formatter writes exactly
    [milliseconds; seconds mod 10; seconds / 10; minutes]; it yields
    [7; 5; 4; 3] for 3:45.7, and running it again on its own output with the
    state untouched gives the same array. *)
Theorem formatter_is_projection (s : state) (a : list Z) :
  u8_state s -> length a = 4%nat ->
  Calculate_Stopwatch_Value s a =
    [milliseconds s; seconds s mod 10; seconds s / 10; minutes s] /\
  Calculate_Stopwatch_Value
    (set_minutes 3 (set_seconds 45 (set_milliseconds 7 s))) a = [7; 5; 4; 3] /\
  Calculate_Stopwatch_Value s (Calculate_Stopwatch_Value s a) =
    Calculate_Stopwatch_Value s a.
Proof.
  intros Hu8 Hlen.
  assert (Hsec : is_u8 (seconds s)) by apply Hu8.
  rewrite (calculate_digits s a Hsec Hlen). split; [reflexivity|]. split.
  - rewrite calculate_digits; [reflexivity | | exact Hlen].
    fields. unfold is_u8. lia.
  - now rewrite calculate_digits.
Qed.

Lemma formatter_is_projection_witness :
  Calculate_Stopwatch_Value (mkState 0 12 7 45 3 1 0 None) [0; 0; 0; 0] =
  [7; 5; 4; 3].
Proof.
  refine (proj1 (formatter_is_projection
                   (mkState 0 12 7 45 3 1 0 None) [0; 0; 0; 0] _ _)).
  - unfold u8_state, is_u8. fields. lia.
  - reflexivity.
Defined.

(** C9: when milliseconds, seconds and minutes are within the ranges of the
    data model, the formatter leaves four digits, each between 0 and 9. *)
Theorem digits_are_decimal (s : state) (a : list Z) :
  0 <= milliseconds s <= 9 -> 0 <= seconds s <= 59 -> 0 <= minutes s <= 9 ->
  length a = 4%nat ->
  length (Calculate_Stopwatch_Value s a) = 4%nat /\
  Forall (fun d : Z => 0 <= d <= 9) (Calculate_Stopwatch_Value s a).
Proof.
  intros Hms Hsec Hmn Hlen.
  rewrite calculate_digits by (unfold is_u8; lia || exact Hlen).
  split; [reflexivity|].
  repeat constructor; try lia.
  - apply Z.mod_pos_bound. lia.
  - pose proof (Z.mod_pos_bound (seconds s) 10). lia.
  - apply Z.div_pos; lia.
  - assert (seconds s / 10 < 10) by (apply Z.div_lt_upper_bound; lia). lia.
Qed.

Lemma digits_are_decimal_witness :
  Forall (fun d : Z => 0 <= d <= 9)
         (Calculate_Stopwatch_Value (mkState 0 99 9 59 9 1 0 None) [0; 0; 0; 0]).
Proof.
  refine (proj2 (digits_are_decimal
                   (mkState 0 99 9 59 9 1 0 None) [0; 0; 0; 0] _ _ _ _)).
  - fields. lia.
  - fields. lia.
  - fields. lia.
  - reflexivity.
Defined.

(** ** Reset, then start *)

(** C10: when the reset button (0x10) and then the start button (0x04) are
    pressed with no tick in between, the next tick leaves the stopwatch
    stopped, with no reset pending and the four time counters at zero. *)
Theorem pending_reset_overrides_start (s : state) :
  reachable s ->
  let s' := Timer_0A_Periodic_Task
              (PMOD_BTN_Handler 0x04 (PMOD_BTN_Handler 0x10 s)) in
  start_stopwatch s' = 0 /\ reset_stopwatch s' = 0 /\
  ms_elapsed s' = 0 /\ milliseconds s' = 0 /\ seconds s' = 0 /\ minutes s' = 0.
Proof.
  intros _ s'. subst s'. rewrite pmod_reset, pmod_start.
  rewrite tick_reset by reflexivity. fields. repeat split.
Qed.

Lemma pending_reset_overrides_start_witness :
  let s' := Timer_0A_Periodic_Task
              (PMOD_BTN_Handler 0x04
                 (PMOD_BTN_Handler 0x10
                    (Timer_0A_Periodic_Task
                       (PMOD_BTN_Handler 0x04 init_state)))) in
  start_stopwatch s' = 0 /\ reset_stopwatch s' = 0 /\
  ms_elapsed s' = 0 /\ milliseconds s' = 0 /\ seconds s' = 0 /\ minutes s' = 0.
Proof.
  apply pending_reset_overrides_start. auto with stopwatch.
Defined.

(** ** Long runs of ticks *)

Lemma bounds_elapsed (s : state) :
  time_bounds s -> 0 <= elapsed s < full_wrap.
Proof. unfold time_bounds, elapsed, full_wrap. lia. Qed.

(** The counters are the mixed-radix digits of the encoded time. *)
Lemma elapsed_digits (s : state) :
  time_bounds s ->
  ms_elapsed s = elapsed s mod 100 /\
  milliseconds s = elapsed s / 100 mod 10 /\
  seconds s = elapsed s / 1000 mod 60 /\
  minutes s = elapsed s / 60000.
Proof.
  unfold time_bounds, elapsed. intros (He & Hms & Hsec & Hmn).
  repeat split; Z.div_mod_to_equations; lia.
Qed.

Section Running.

(** A stopwatch that is running, within its ranges, with no reset pending. *)
Variable s : state.
Hypothesis Hb : time_bounds s.
Hypothesis Hrun : start_stopwatch s = 1.
Hypothesis Hrs : reset_stopwatch s <> 1.

(** [n] ticks advance the encoded time by [n] periods modulo ten minutes. *)
Lemma ticks_running (n : N) :
  let s' := ticks n s in
  time_bounds s' /\
  elapsed s' = (elapsed s + Z.of_N n) mod full_wrap /\
  counter s' = counter s /\ start_stopwatch s' = 1 /\
  reset_stopwatch s' = reset_stopwatch s /\ rgb_led s' = rgb_led s.
Proof.
  cbv zeta. induction n as [|n IH] using N.peano_ind.
  - unfold ticks. cbn [N.iter]. rewrite Z.add_0_r.
    rewrite Z.mod_small by now apply bounds_elapsed.
    split; [exact Hb|]. repeat split; assumption.
  - rewrite ticks_succ.
    destruct IH as (Hb' & Hel & Hc & Hrun' & Hrs' & Hled).
    assert (Hrs'' : reset_stopwatch (ticks n s) <> 1) by now rewrite Hrs'.
    destruct (tick_running (ticks n s) Hb' Hrun' Hrs'')
      as (Hb1 & Hel1 & Hc1 & Hrun1 & Hrs1 & Hled1).
    split; [exact Hb1|]. repeat split; try congruence.
    rewrite Hel1, Hel, N2Z.inj_succ. unfold full_wrap.
    rewrite Z.add_mod_idemp_l by lia. f_equal. lia.
Qed.

(** The sub-tick counter after [n] ticks. *)
Lemma ticks_ms_elapsed (n : N) :
  ms_elapsed (ticks n s) = (ms_elapsed s + Z.of_N n) mod 100.
Proof.
  destruct (ticks_running n) as (Hb' & Hel & _).
  destruct (elapsed_digits _ Hb') as (-> & _). rewrite Hel.
  pose proof (N2Z.is_nonneg n).
  unfold time_bounds, elapsed, full_wrap in *.
  Z.div_mod_to_equations. lia.
Qed.

End Running.

(** A state is determined by its encoded time and its remaining fields. *)
Lemma state_eq_by_elapsed (s t : state) :
  time_bounds s -> time_bounds t -> elapsed s = elapsed t ->
  counter s = counter t -> start_stopwatch s = start_stopwatch t ->
  reset_stopwatch s = reset_stopwatch t -> rgb_led s = rgb_led t ->
  s = t.
Proof.
  intros Hs Ht Hel Hc Hst Hrs Hled.
  destruct (elapsed_digits s Hs) as (E1 & E2 & E3 & E4).
  destruct (elapsed_digits t Ht) as (F1 & F2 & F3 & F4).
  rewrite Hel in E1, E2, E3, E4.
  destruct s, t; fields; congruence.
Qed.

(** C5: from the all-zero state with the start flag set and no reset pending,
    the flags stay as they are under ticks alone, and 600,000 ticks bring
    minutes, seconds and milliseconds back to 0: tick 599,999 shows 9:59.9
    with 99 sub-ticks, the next one wraps minutes from 9 to 0 with no carry,
    and the whole state is again the one it started from. *)
Theorem ten_minute_wrap (c : Z) (led : option rgb_color) :
  let s0 := mkState c 0 0 0 0 1 0 led in
  (forall n : N,
      start_stopwatch (ticks n s0) = 1 /\ reset_stopwatch (ticks n s0) = 0) /\
  ticks 599999 s0 = mkState c 99 9 59 9 1 0 led /\
  ticks 600000 s0 = s0 /\
  minutes (ticks 600000 s0) = 0 /\ seconds (ticks 600000 s0) = 0 /\
  milliseconds (ticks 600000 s0) = 0.
Proof.
  intros s0.
  assert (Hb : time_bounds s0) by (unfold time_bounds, s0; fields; lia).
  assert (Hrun : start_stopwatch s0 = 1) by reflexivity.
  assert (Hrs : reset_stopwatch s0 <> 1) by discriminate.
  assert (Hwrap : ticks 600000 s0 = s0).
  { destruct (ticks_running s0 Hb Hrun Hrs 600000)
      as (Hb' & Hel & Hc & Hst & Hrs' & Hled).
    apply state_eq_by_elapsed;
      [exact Hb' | exact Hb | | exact Hc | | exact Hrs' | exact Hled].
    - rewrite Hel. reflexivity.
    - rewrite Hst. reflexivity. }
  assert (Hlast : ticks 599999 s0 = mkState c 99 9 59 9 1 0 led).
  { destruct (ticks_running s0 Hb Hrun Hrs 599999)
      as (Hb' & Hel & Hc & Hst & Hrs' & Hled).
    apply state_eq_by_elapsed;
      [exact Hb' | | | exact Hc | exact Hst | exact Hrs' | exact Hled].
    - unfold time_bounds; fields; lia.
    - rewrite Hel. reflexivity. }
  split.
  { intros n.
    destruct (ticks_running s0 Hb Hrun Hrs n) as (_ & _ & _ & Hst & Hrs' & _).
    split; [exact Hst | exact Hrs']. }
  split; [exact Hlast|]. split; [exact Hwrap|].
  rewrite Hwrap. split; [reflexivity|]. split; reflexivity.
Qed.

(** ** Counting the executions of [milliseconds++] *)

Lemma ms_increments_succ (n : N) (s : state) :
  ms_increments (N.succ n) s =
  if tenth_rollover (ticks n s)
  then N.succ (ms_increments n s) else ms_increments n s.
Proof.
  unfold ms_increments. rewrite N.iter_succ. cbn [fst snd].
  assert (Hsnd : forall k,
             snd (N.iter k
                    (fun p : N * state =>
                       ((if tenth_rollover (snd p)
                         then N.succ (fst p) else fst p),
                        Timer_0A_Periodic_Task (snd p))) (0%N, s)) =
             ticks k s).
  { intros k. induction k as [|k IH] using N.peano_ind.
    - reflexivity.
    - rewrite N.iter_succ, ticks_succ. cbn [snd]. now rewrite IH. }
  now rewrite Hsnd.
Qed.

(** The guard is the one of the source: a running tick bumps [milliseconds]
    (with its wrap at 10) when [tenth_rollover] holds, and leaves it alone
    otherwise. *)
Lemma tenth_rollover_spec (s : state) :
  time_bounds s -> start_stopwatch s = 1 -> reset_stopwatch s <> 1 ->
  milliseconds (Timer_0A_Periodic_Task s) =
  if tenth_rollover s then (milliseconds s + 1) mod 10 else milliseconds s.
Proof.
  intros Hb Hrun Hrs.
  destruct (tick_running s Hb Hrun Hrs) as (Hb' & Hel & _).
  destruct (elapsed_digits _ Hb') as (_ & -> & _). rewrite Hel.
  unfold tenth_rollover. rewrite Hrun. change (1 =? 1) with true.
  cbn [andb]. unfold time_bounds, elapsed, full_wrap in *.
  rewrite u8_small by (unfold is_u8; lia).
  destruct (Z.gtb_spec (ms_elapsed s + 1) 99);
    Z.div_mod_to_equations; lia.
Qed.

Lemma ms_increments_running (n : N) (s : state) :
  time_bounds s -> start_stopwatch s = 1 -> reset_stopwatch s <> 1 ->
  Z.of_N (ms_increments n s) = (ms_elapsed s + Z.of_N n) / 100.
Proof.
  intros Hb Hrun Hrs.
  assert (He : 0 <= ms_elapsed s <= 99) by apply Hb.
  induction n as [|n IH] using N.peano_ind.
  - unfold ms_increments. cbn [N.iter fst Z.of_N]. rewrite Z.add_0_r.
    symmetry. apply Z.div_small. lia.
  - rewrite ms_increments_succ.
    destruct (ticks_running s Hb Hrun Hrs n) as (_ & _ & _ & Hrun' & _).
    unfold tenth_rollover. rewrite Hrun'. change (1 =? 1) with true.
    cbn [andb]. rewrite (ticks_ms_elapsed s Hb Hrun Hrs n).
    pose proof (N2Z.is_nonneg n) as Hn.
    pose proof (Z.mod_pos_bound (ms_elapsed s + Z.of_N n) 100) as Hmod.
    rewrite u8_small by (unfold is_u8; lia).
    destruct (Z.gtb_spec ((ms_elapsed s + Z.of_N n) mod 100 + 1) 99);
      rewrite ?N2Z.inj_succ, IH; Z.div_mod_to_equations; lia.
Qed.

(** C6 (amended): from a reachable state, running with no reset pending,
    [milliseconds++] executes exactly once in 100 consecutive ticks, which
    take [milliseconds] to its successor modulo 10 and [ms_elapsed] back to
    the value it had; in 1000 consecutive ticks it executes exactly ten
    times, so [milliseconds] and [ms_elapsed] are back at their values and
    it is [seconds] that has advanced by one (modulo 60). *)
Theorem tenth_every_hundred_ticks (s : state) :
  reachable s -> start_stopwatch s = 1 -> reset_stopwatch s <> 1 ->
  (ms_increments 100 s = 1%N /\
   milliseconds (ticks 100 s) = (milliseconds s + 1) mod 10 /\
   ms_elapsed (ticks 100 s) = ms_elapsed s) /\
  (ms_increments 1000 s = 10%N /\
   milliseconds (ticks 1000 s) = milliseconds s /\
   ms_elapsed (ticks 1000 s) mod 100 = ms_elapsed s mod 100 /\
   seconds (ticks 1000 s) = (seconds s + 1) mod 60).
Proof.
  intros Hreach Hrun Hrs.
  assert (Hb : time_bounds s) by apply (reachable_bounds s Hreach).
  pose proof (ms_increments_running 100 s Hb Hrun Hrs) as Hn100.
  pose proof (ms_increments_running 1000 s Hb Hrun Hrs) as Hn1000.
  destruct (ticks_running s Hb Hrun Hrs 100) as (Hb100 & Hel100 & _).
  destruct (ticks_running s Hb Hrun Hrs 1000) as (Hb1000 & Hel1000 & _).
  destruct (elapsed_digits _ Hb100) as (E1 & E2 & _).
  destruct (elapsed_digits _ Hb1000) as (F1 & F2 & F3 & _).
  rewrite Hel100 in E1, E2. rewrite Hel1000 in F1, F2, F3.
  change (Z.of_N 100) with 100 in *. change (Z.of_N 1000) with 1000 in *.
  rewrite E1, E2, F1, F2, F3. clear E1 E2 F1 F2 F3 Hel100 Hel1000 Hb100 Hb1000.
  unfold time_bounds, elapsed, full_wrap in *.
  destruct Hb as (He & Hms & Hsec & Hmn).
  split; [split; [|split] | split; [|split; [|split]]].
  - apply N2Z.inj. rewrite Hn100. Z.div_mod_to_equations. lia.
  - Z.div_mod_to_equations. lia.
  - Z.div_mod_to_equations. lia.
  - apply N2Z.inj. rewrite Hn1000. Z.div_mod_to_equations. lia.
  - Z.div_mod_to_equations. lia.
  - Z.div_mod_to_equations. lia.
  - Z.div_mod_to_equations. lia.
Qed.

Lemma tenth_every_hundred_ticks_witness :
  let s := PMOD_BTN_Handler 0x04 init_state in
  (ms_increments 100 s = 1%N /\
   milliseconds (ticks 100 s) = (milliseconds s + 1) mod 10 /\
   ms_elapsed (ticks 100 s) = ms_elapsed s) /\
  (ms_increments 1000 s = 10%N /\
   milliseconds (ticks 1000 s) = milliseconds s /\
   ms_elapsed (ticks 1000 s) mod 100 = ms_elapsed s mod 100 /\
   seconds (ticks 1000 s) = (seconds s + 1) mod 60).
Proof.
  apply tenth_every_hundred_ticks.
  - auto with stopwatch.
  - reflexivity.
  - discriminate.
Defined.

(** C6 as stated fails right after the start button is pressed on the
    initial state: in the next 1000 ticks [milliseconds++] executes ten times,
    not once, and [milliseconds] ends at 0, where it began, not at 1; the
    second that went by is in [seconds]. *)
Lemma thousand_ticks_bump_milliseconds_ten_times :
  let s := PMOD_BTN_Handler 0x04 init_state in
  reachable s /\ start_stopwatch s = 1 /\ reset_stopwatch s = 0 /\
  ms_increments 1000 s = 10%N /\ ms_increments 1000 s <> 1%N /\
  milliseconds s = 0 /\ milliseconds (ticks 1000 s) = 0 /\
  milliseconds (ticks 1000 s) <> (milliseconds s + 1) mod 10 /\
  seconds (ticks 1000 s) = 1.
Proof.
  cbv zeta. split.
  - auto with stopwatch.
  - repeat split; try (vm_compute; reflexivity); vm_compute; discriminate.
Qed.

(** * Further properties of the handlers *)

(** ** Who writes what *)

(** What a tick does to the fields the counting statements leave alone:
    either it applies a pending reset, or both flags are as before. *)
Lemma tick_controls (s : state) :
  let s' := Timer_0A_Periodic_Task s in
  counter s' = counter s /\ rgb_led s' = rgb_led s /\
  ((start_stopwatch s = 1 /\ reset_stopwatch s = 1 /\
    start_stopwatch s' = 0 /\ reset_stopwatch s' = 0) \/
   (start_stopwatch s' = start_stopwatch s /\
    reset_stopwatch s' = reset_stopwatch s)).
Proof.
  cbv zeta. rewrite task_by_statement.
  destruct (Z.eqb_spec (start_stopwatch s) 1) as [Hrun|Hstop]; [|auto].
  destruct (counting_keeps_controls s) as (Hc & Hst & Hrs & Hled).
  unfold check_reset. rewrite Hrs.
  destruct (Z.eqb_spec (reset_stopwatch s) 1) as [Hreset|Hno].
  - unfold apply_reset. fields. auto 10.
  - auto 10.
Qed.

(** X1: the start flag is raised by the BTN0 press (0x04) and by nothing
    else, the reset flag by the BTN2 press (0x10) and by nothing else, and a
    raised reset flag is only ever lowered by a timer tick taken while the
    start flag is set. *)
Theorem flags_have_one_source (e : event) (s : state) :
  (start_stopwatch (dispatch e s) = 1 ->
   start_stopwatch s = 1 \/ e = PMOD_BTN_IRQ 0x04) /\
  (reset_stopwatch (dispatch e s) = 1 ->
   reset_stopwatch s = 1 \/ e = PMOD_BTN_IRQ 0x10) /\
  (reset_stopwatch s = 1 -> reset_stopwatch (dispatch e s) <> 1 ->
   e = Timer_0A_IRQ /\ start_stopwatch s = 1).
Proof.
  destruct e as [|code|code]; cbn [dispatch].
  - destruct (tick_controls s) as (_ & _ & [(Hrun & Hrs & Hst' & Hrs')|(Hst' & Hrs')]);
      rewrite Hst', Hrs'; repeat split; auto; try discriminate; congruence.
  - unfold PMOD_BTN_Handler.
    repeat test_case; subst; repeat split; auto; try discriminate; congruence.
  - unfold EduBase_Button_Handler.
    repeat test_case; repeat split; auto; congruence.
Qed.

Lemma flags_have_one_source_witness :
  start_stopwatch init_state = 1 \/ PMOD_BTN_IRQ 0x04 = PMOD_BTN_IRQ 0x04.
Proof.
  refine (proj1 (flags_have_one_source (PMOD_BTN_IRQ 0x04) init_state) _).
  reflexivity.
Defined.

(** X2: the time counters change only in a timer tick taken while the start
    flag is set, the display counter only on the two EduBase codes, and the
    indicator only on the three PMOD codes that have a body. *)
Theorem each_datum_has_one_writer (e : event) (s : state) :
  ((e = Timer_0A_IRQ /\ start_stopwatch s = 1) \/ same_time s (dispatch e s)) /\
  (e = EduBase_Button_IRQ 0x08 \/ e = EduBase_Button_IRQ 0x04 \/
   counter (dispatch e s) = counter s) /\
  (e = PMOD_BTN_IRQ 0x04 \/ e = PMOD_BTN_IRQ 0x08 \/ e = PMOD_BTN_IRQ 0x10 \/
   rgb_led (dispatch e s) = rgb_led s).
Proof.
  destruct e as [|code|code]; cbn [dispatch].
  - destruct (tick_controls s) as (Hc & Hled & _).
    split; [|split; auto].
    destruct (Z.eq_dec (start_stopwatch s) 1) as [Hrun|Hstop]; [auto|].
    right. rewrite (tick_stopped s Hstop). unfold same_time. auto.
  - unfold PMOD_BTN_Handler, same_time.
    repeat test_case; subst; auto 10.
  - unfold EduBase_Button_Handler, same_time.
    repeat test_case; subst; auto 10.
Qed.

(** X3: on the PMOD buttons the last of start and stop wins, pressing a
    button twice is pressing it once, and no later press of any button takes
    a reset request back. *)
Theorem pmod_presses_compose (code : Z) (s : state) :
  PMOD_BTN_Handler code (PMOD_BTN_Handler code s) = PMOD_BTN_Handler code s /\
  PMOD_BTN_Handler 0x04 (PMOD_BTN_Handler 0x08 s) = PMOD_BTN_Handler 0x04 s /\
  PMOD_BTN_Handler 0x08 (PMOD_BTN_Handler 0x04 s) = PMOD_BTN_Handler 0x08 s /\
  reset_stopwatch (PMOD_BTN_Handler code (PMOD_BTN_Handler 0x10 s)) = 1.
Proof.
  split; [|split; [reflexivity | split; [reflexivity|]]].
  - unfold PMOD_BTN_Handler. repeat test_case; reflexivity.
  - rewrite pmod_reset. unfold PMOD_BTN_Handler.
    repeat test_case; reflexivity.
Qed.

(** ** The display counter *)

Lemma edubase_inc (s : state) :
  EduBase_Button_Handler 0x08 s =
  if counter s >=? 15 then set_counter 0 s
  else set_counter (u8 (counter s + 1)) s.
Proof. reflexivity. Qed.

Lemma edubase_dec (s : state) :
  EduBase_Button_Handler 0x04 s =
  if counter s <=? 0 then set_counter 15 s
  else set_counter (u8 (counter s - 1)) s.
Proof. reflexivity. Qed.

(** Within its range, a press of SW2 adds one modulo 16 and a press of SW3
    subtracts one modulo 16. *)
Lemma edubase_inc_mod (s : state) :
  0 <= counter s <= 15 ->
  EduBase_Button_Handler 0x08 s = set_counter ((counter s + 1) mod 16) s.
Proof.
  rewrite edubase_inc. destruct s as [c e ms sec mn st rs led]; fields.
  intros Hc. test_case; f_equal.
  - assert (c = 15) as -> by lia. reflexivity.
  - rewrite u8_small by (unfold is_u8; lia). symmetry. apply Z.mod_small. lia.
Qed.

Lemma edubase_dec_mod (s : state) :
  0 <= counter s <= 15 ->
  EduBase_Button_Handler 0x04 s = set_counter ((counter s - 1) mod 16) s.
Proof.
  rewrite edubase_dec. destruct s as [c e ms sec mn st rs led]; fields.
  intros Hc. test_case; f_equal.
  - assert (c = 0) as -> by lia. reflexivity.
  - rewrite u8_small by (unfold is_u8; lia). symmetry. apply Z.mod_small. lia.
Qed.

(** X4: with the display counter in its range 0..15, the two EduBase buttons
    undo each other, in either order and across both wrap-arounds. *)
Theorem edubase_buttons_are_inverse (s : state) :
  0 <= counter s <= 15 ->
  EduBase_Button_Handler 0x04 (EduBase_Button_Handler 0x08 s) = s /\
  EduBase_Button_Handler 0x08 (EduBase_Button_Handler 0x04 s) = s.
Proof.
  intros Hc.
  pose proof (Z.mod_pos_bound (counter s + 1) 16) as Hinc.
  pose proof (Z.mod_pos_bound (counter s - 1) 16) as Hdec.
  rewrite (edubase_inc_mod s Hc), (edubase_dec_mod s Hc).
  rewrite edubase_dec_mod, edubase_inc_mod by (cbn [counter set_counter]; lia).
  destruct s as [c e ms sec mn st rs led]; fields.
  split; f_equal; Z.div_mod_to_equations; lia.
Qed.

Lemma edubase_buttons_are_inverse_witness :
  let s := mkState 15 1 2 3 4 1 0 (Some RGB_LED_GREEN) in
  EduBase_Button_Handler 0x04 (EduBase_Button_Handler 0x08 s) = s.
Proof.
  intros s. refine (proj1 (edubase_buttons_are_inverse s _)).
  unfold s. fields. lia.
Defined.

(** X5: with the display counter in its range, [n] presses of SW2 leave
    [(counter + n) mod 16] and [n] presses of SW3 leave [(counter - n) mod 16],
    and nothing else in the state moves; sixteen presses of either button are
    therefore no change at all. *)
Theorem edubase_presses_count_mod_16 (n : N) (s : state) :
  0 <= counter s <= 15 ->
  N.iter n (EduBase_Button_Handler 0x08) s =
    set_counter ((counter s + Z.of_N n) mod 16) s /\
  N.iter n (EduBase_Button_Handler 0x04) s =
    set_counter ((counter s - Z.of_N n) mod 16) s /\
  N.iter 16 (EduBase_Button_Handler 0x08) s = s /\
  N.iter 16 (EduBase_Button_Handler 0x04) s = s.
Proof.
  intros Hc.
  assert (Hup : forall k, N.iter k (EduBase_Button_Handler 0x08) s =
                          set_counter ((counter s + Z.of_N k) mod 16) s).
  { intros k. induction k as [|k IH] using N.peano_ind.
    - cbn [N.iter Z.of_N]. rewrite Z.add_0_r, Z.mod_small by lia.
      destruct s; reflexivity.
    - rewrite N.iter_succ, IH, N2Z.inj_succ.
      pose proof (Z.mod_pos_bound (counter s + Z.of_N k) 16).
      rewrite edubase_inc_mod by (cbn [counter set_counter]; lia).
      destruct s as [c e ms sec mn st rs led]; fields. f_equal.
      rewrite Z.add_mod_idemp_l by lia. f_equal. lia. }
  assert (Hdown : forall k, N.iter k (EduBase_Button_Handler 0x04) s =
                            set_counter ((counter s - Z.of_N k) mod 16) s).
  { intros k. induction k as [|k IH] using N.peano_ind.
    - cbn [N.iter Z.of_N]. rewrite Z.sub_0_r, Z.mod_small by lia.
      destruct s; reflexivity.
    - rewrite N.iter_succ, IH, N2Z.inj_succ.
      pose proof (Z.mod_pos_bound (counter s - Z.of_N k) 16).
      rewrite edubase_dec_mod by (cbn [counter set_counter]; lia).
      destruct s as [c e ms sec mn st rs led]; fields. f_equal.
      rewrite Zminus_mod_idemp_l. f_equal. lia. }
  split; [apply Hup|]. split; [apply Hdown|].
  rewrite (Hup 16%N), (Hdown 16%N). change (Z.of_N 16) with 16.
  destruct s as [c e ms sec mn st rs led]; fields.
  split; f_equal; Z.div_mod_to_equations; lia.
Qed.

Lemma edubase_presses_count_mod_16_witness :
  N.iter 20 (EduBase_Button_Handler 0x08) (mkState 14 0 0 0 0 0 0 None) =
  mkState 2 0 0 0 0 0 0 None.
Proof.
  refine (proj1 (edubase_presses_count_mod_16
                   20 (mkState 14 0 0 0 0 0 0 None) _)).
  fields. lia.
Defined.

(** The periodic task does not read the display counter. *)
Lemma tick_set_counter (v : Z) (s : state) :
  Timer_0A_Periodic_Task (set_counter v s) =
  set_counter v (Timer_0A_Periodic_Task s).
Proof.
  assert (H1 : forall a, count_period (set_counter v a) =
                         set_counter v (count_period a)) by reflexivity.
  assert (H2 : forall a, carry_ms_elapsed (set_counter v a) =
                         set_counter v (carry_ms_elapsed a))
    by (intros [c e ms sec mn st rs led]; unfold carry_ms_elapsed; fields;
        destruct (e >? 99); reflexivity).
  assert (H3 : forall a, carry_milliseconds (set_counter v a) =
                         set_counter v (carry_milliseconds a))
    by (intros [c e ms sec mn st rs led]; unfold carry_milliseconds; fields;
        destruct (ms >? 9); reflexivity).
  assert (H4 : forall a, carry_seconds (set_counter v a) =
                         set_counter v (carry_seconds a))
    by (intros [c e ms sec mn st rs led]; unfold carry_seconds; fields;
        destruct (sec >? 59); reflexivity).
  assert (H5 : forall a, wrap_minutes (set_counter v a) =
                         set_counter v (wrap_minutes a))
    by (intros [c e ms sec mn st rs led]; unfold wrap_minutes; fields;
        destruct (mn >? 9); reflexivity).
  assert (H6 : forall a, check_reset (set_counter v a) =
                         set_counter v (check_reset a))
    by (intros [c e ms sec mn st rs led]; unfold check_reset; fields;
        destruct (rs =? 1); reflexivity).
  rewrite !task_by_statement.
  change (start_stopwatch (set_counter v s)) with (start_stopwatch s).
  destruct (start_stopwatch s =? 1); [|reflexivity].
  now rewrite H1, H2, H3, H4, H5, H6.
Qed.

(** X6: the display counter and the stopwatch do not interfere: a press of
    an EduBase button commutes with a timer tick and with a press of any PMOD
    button, whatever the status codes. *)
Theorem edubase_commutes_with_stopwatch (code pmod_code : Z) (s : state) :
  EduBase_Button_Handler code (Timer_0A_Periodic_Task s) =
    Timer_0A_Periodic_Task (EduBase_Button_Handler code s) /\
  EduBase_Button_Handler code (PMOD_BTN_Handler pmod_code s) =
    PMOD_BTN_Handler pmod_code (EduBase_Button_Handler code s).
Proof.
  split.
  - unfold EduBase_Button_Handler. rewrite tick_counter.
    destruct (code =? 8); [destruct (counter s >=? 15) |
      destruct (code =? 4); [destruct (counter s <=? 0) |]];
      rewrite ?tick_set_counter; reflexivity.
  - destruct s as [c e ms sec mn st rs led].
    unfold EduBase_Button_Handler, PMOD_BTN_Handler.
    repeat test_case; reflexivity.
Qed.

(** ** The periodic task on arbitrary counter values *)

(** Name every truncated value in the goal and keep only its range. *)
Ltac gen_u8 :=
  repeat match goal with
         | |- context [u8 ?x] =>
             let H := fresh "Hu8" in
             pose proof (u8_range x) as H; unfold is_u8 in H;
             generalize dependent (u8 x); intros
         end.

(** X7: a tick taken while the start flag is set leaves the four time
    counters within their ranges whatever [uint8_t] values they held before:
    each comparison is with [>], so a counter found above its limit is
    cleared by the same statement that clears it at a regular carry. *)
Theorem running_tick_establishes_ranges (s : state) :
  u8_state s -> start_stopwatch s = 1 ->
  time_bounds (Timer_0A_Periodic_Task s).
Proof.
  rewrite task_by_statement.
  destruct s as [c e ms sec mn st rs led]. unfold u8_state, is_u8. fields.
  intros (Hc & He & Hms & Hsec & Hmn & Hst & Hrs) ->.
  change (1 =? 1) with true; cbv iota.
  unfold count_period; fields; gen_u8.
  unfold carry_ms_elapsed; test_case; gen_u8;
    (unfold carry_milliseconds; test_case; gen_u8);
    (unfold carry_seconds; test_case; gen_u8);
    (unfold wrap_minutes; test_case);
    (unfold check_reset; test_case);
    unfold time_bounds; fields; lia.
Qed.

Lemma running_tick_establishes_ranges_witness :
  time_bounds (Timer_0A_Periodic_Task (mkState 0 200 255 77 10 1 0 None)).
Proof.
  apply running_tick_establishes_ranges.
  - unfold u8_state, is_u8. fields. lia.
  - reflexivity.
Defined.

(** ** Closed form of a run *)

(** X8: [n] ticks of a running stopwatch, within its ranges and with no reset
    pending, leave the mixed-radix digits of the elapsed time advanced by [n]
    periods modulo ten minutes: sub-ticks modulo 100, tenths, seconds modulo
    60 and minutes; flags, display counter and indicator are as before. *)
Theorem ticks_closed_form (n : N) (s : state) :
  time_bounds s -> start_stopwatch s = 1 -> reset_stopwatch s <> 1 ->
  let t := (elapsed s + Z.of_N n) mod full_wrap in
  ticks n s =
  mkState (counter s) (t mod 100) (t / 100 mod 10) (t / 1000 mod 60)
          (t / 60000) 1 (reset_stopwatch s) (rgb_led s).
Proof.
  intros Hb Hrun Hrs t.
  destruct (ticks_running s Hb Hrun Hrs n) as (Hb' & Hel & Hc & Hst & Hrs' & Hled).
  destruct (elapsed_digits _ Hb') as (E1 & E2 & E3 & E4).
  rewrite Hel in E1, E2, E3, E4. fold t in E1, E2, E3, E4.
  destruct (ticks n s) as [c' e' ms' sec' mn' st' rs' led'].
  cbn [counter ms_elapsed milliseconds seconds minutes start_stopwatch
       reset_stopwatch rgb_led] in *.
  congruence.
Qed.

Lemma ticks_closed_form_witness :
  ticks 754321 (mkState 7 0 0 0 0 1 0 (Some RGB_LED_GREEN)) =
  mkState 7 21 3 34 2 1 0 (Some RGB_LED_GREEN).
Proof.
  refine (ticks_closed_form 754321 (mkState 7 0 0 0 0 1 0 (Some RGB_LED_GREEN))
                            _ _ _).
  - unfold time_bounds. fields. lia.
  - reflexivity.
  - discriminate.
Defined.

Lemma ticks_add (n m : N) (s : state) :
  ticks (n + m) s = ticks n (ticks m s).
Proof. unfold ticks. apply N.iter_add. Qed.

(** X9: a running stopwatch within its ranges, with no reset pending, is
    periodic with period 600,000 ticks: after that many ticks the whole state
    is what it was, so any run is the same as the run 600,000 ticks longer. *)
Theorem ticks_period_ten_minutes (n : N) (s : state) :
  time_bounds s -> start_stopwatch s = 1 -> reset_stopwatch s <> 1 ->
  ticks 600000 s = s /\ ticks (n + 600000) s = ticks n s.
Proof.
  intros Hb Hrun Hrs.
  assert (Hmod : (elapsed s + Z.of_N 600000) mod full_wrap = elapsed s).
  { pose proof (bounds_elapsed s Hb) as Hel.
    change (Z.of_N 600000) with (1 * full_wrap).
    rewrite Z_mod_plus_full. now apply Z.mod_small. }
  assert (Hwrap : ticks 600000 s = s).
  { destruct (ticks_running s Hb Hrun Hrs 600000)
      as (Hb' & Hel & Hc & Hst & Hrs' & Hled).
    apply state_eq_by_elapsed;
      [exact Hb' | exact Hb | | exact Hc | | exact Hrs' | exact Hled].
    - rewrite Hel. exact Hmod.
    - rewrite Hst. symmetry. exact Hrun. }
  split; [exact Hwrap|]. rewrite ticks_add, Hwrap. reflexivity.
Qed.

Lemma ticks_period_ten_minutes_witness :
  ticks 600000 (mkState 3 42 7 45 3 1 0 None) = mkState 3 42 7 45 3 1 0 None.
Proof.
  refine (proj1 (ticks_period_ten_minutes
                   0 (mkState 3 42 7 45 3 1 0 None) _ _ _)).
  - unfold time_bounds. fields. lia.
  - reflexivity.
  - discriminate.
Defined.

(** ** Stop, start and reset around a run *)

Lemma pmod_stop (s : state) :
  PMOD_BTN_Handler 0x08 s =
  set_start_stopwatch 0 (RGB_LED_Output RGB_LED_RED s).
Proof. reflexivity. Qed.

(** X10: for a stopwatch within its ranges and with no reset pending, the
    stop button freezes the time for any number of ticks, and the start
    button resumes the run with nothing lost: [m] ticks after the restart
    the elapsed time is the one at the stop plus [m] periods. *)
Theorem stop_freezes_start_resumes (n m : N) (s : state) :
  time_bounds s -> reset_stopwatch s <> 1 ->
  let paused := ticks n (PMOD_BTN_Handler 0x08 s) in
  same_time s paused /\
  elapsed (ticks m (PMOD_BTN_Handler 0x04 paused)) =
  (elapsed s + Z.of_N m) mod full_wrap.
Proof.
  intros Hb Hrs paused. subst paused.
  rewrite ticks_stopped by (rewrite pmod_stop; discriminate).
  rewrite pmod_stop, pmod_start.
  destruct s as [c e ms sec mn st rs led]. fields.
  split; [unfold same_time; fields; auto|].
  destruct (ticks_running
              (mkState c e ms sec mn 1 rs (Some RGB_LED_GREEN)) Hb eq_refl Hrs m)
    as (_ & Hel & _).
  rewrite Hel. reflexivity.
Qed.

Lemma stop_freezes_start_resumes_witness :
  let s := mkState 0 50 4 30 2 1 0 (Some RGB_LED_GREEN) in
  elapsed (ticks 70 (PMOD_BTN_Handler 0x04
                       (ticks 100000 (PMOD_BTN_Handler 0x08 s)))) =
  (elapsed s + 70) mod full_wrap.
Proof.
  intros s. refine (proj2 (stop_freezes_start_resumes 100000 70 s _ _)).
  - unfold time_bounds, s. fields. lia.
  - discriminate.
Defined.

(** X11: a reset pressed during a run takes effect at the next tick, which
    leaves the stopwatch stopped at zero with the indicator off; it stays
    there under any number of ticks, and after the start button [k] ticks
    show exactly [k] periods (for [k] below ten minutes). *)
Theorem reset_then_start_counts_from_zero (n k : N) (s : state) :
  start_stopwatch s = 1 ->
  let z := Timer_0A_Periodic_Task (PMOD_BTN_Handler 0x10 s) in
  z = mkState (counter s) 0 0 0 0 0 0 (Some RGB_LED_OFF) /\
  ticks n z = z /\
  (Z.of_N k < full_wrap ->
   elapsed (ticks k (PMOD_BTN_Handler 0x04 z)) = Z.of_N k).
Proof.
  destruct s as [c e ms sec mn st rs led]. fields. intros ->.
  assert (Hz : Timer_0A_Periodic_Task
                 (PMOD_BTN_Handler 0x10 (mkState c e ms sec mn 1 rs led)) =
               mkState c 0 0 0 0 0 0 (Some RGB_LED_OFF)).
  { rewrite pmod_reset. fields. now rewrite tick_reset. }
  rewrite Hz. split; [reflexivity|]. split.
  - apply ticks_stopped. discriminate.
  - intros Hk. rewrite pmod_start. fields.
    pose proof (N2Z.is_nonneg k) as Hk0.
    assert (Hb : time_bounds (mkState c 0 0 0 0 1 0 (Some RGB_LED_GREEN)))
      by (unfold time_bounds; fields; lia).
    destruct (ticks_running _ Hb eq_refl ltac:(discriminate) k)
      as (_ & Hel & _).
    rewrite Hel. unfold elapsed. fields. apply Z.mod_small. lia.
Qed.

Lemma reset_then_start_counts_from_zero_witness :
  let z := Timer_0A_Periodic_Task
             (PMOD_BTN_Handler 0x10 (mkState 3 42 7 45 3 1 0 None)) in
  z = mkState 3 0 0 0 0 0 0 (Some RGB_LED_OFF).
Proof.
  intros z.
  refine (proj1 (reset_then_start_counts_from_zero
                   0 0 (mkState 3 42 7 45 3 1 0 None) _)).
  reflexivity.
Defined.

(** ** The indicator *)

(** X12: what the indicator tells in a reachable state: while it is red the
    start flag is clear, and as long as no PMOD button has written it the
    stopwatch has never run: both flags are clear and the time is zero. *)
Theorem indicator_red_means_stopped (s : state) :
  reachable s ->
  (rgb_led s = Some RGB_LED_RED -> start_stopwatch s = 0) /\
  (rgb_led s = None ->
   start_stopwatch s = 0 /\ reset_stopwatch s = 0 /\
   ms_elapsed s = 0 /\ milliseconds s = 0 /\ seconds s = 0 /\ minutes s = 0).
Proof.
  induction 1 as [|e s He _ [IHred IHnone]].
  - split; [discriminate | intros _; repeat split].
  - destruct e as [|code|code]; cbn [dispatch].
    + destruct (tick_controls s) as (_ & Hled & _).
      rewrite Hled. split.
      * intros Hred. rewrite tick_stopped; rewrite (IHred Hred);
          [reflexivity | discriminate].
      * intros Hnone. destruct (IHnone Hnone) as (Hst & Hrest).
        rewrite tick_stopped by (rewrite Hst; discriminate). auto.
    + destruct s as [c e ms sec mn st rs led]. unfold PMOD_BTN_Handler.
      repeat test_case; (split; [try discriminate; auto |
                                 try discriminate; auto]).
    + destruct s as [c e ms sec mn st rs led].
      unfold EduBase_Button_Handler.
      repeat test_case; (split; [exact IHred | exact IHnone]).
Qed.

Lemma indicator_red_means_stopped_witness :
  start_stopwatch
    (PMOD_BTN_Handler 0x08 (Timer_0A_Periodic_Task
                              (PMOD_BTN_Handler 0x04 init_state))) = 0.
Proof.
  refine (proj1 (indicator_red_means_stopped _ _) _).
  - auto with stopwatch.
  - reflexivity.
Defined.

(** ** The digit array *)

Lemma digits_of_bounded_state (s : state) :
  bounds s ->
  is_digit (milliseconds s) /\ is_digit (u8 (Z.rem (seconds s) 10)) /\
  is_digit (u8 (Z.quot (seconds s) 10)) /\ is_digit (minutes s).
Proof.
  unfold bounds, time_bounds, is_digit. intros ((_ & Hms & Hsec & Hmn) & _).
  rewrite Z.rem_mod_nonneg, Z.quot_div_nonneg by lia.
  pose proof (Z.mod_pos_bound (seconds s) 10).
  assert (0 <= seconds s / 10 < 10)
    by (split; [apply Z.div_pos | apply Z.div_lt_upper_bound]; lia).
  rewrite !u8_small by (unfold is_u8; lia). lia.
Qed.

(** X13: the formatter writes the first four slots of the array and nothing
    else: the length is kept, any further elements are left as they were, and
    the four digits do not depend on what the slots held before. *)
Theorem formatter_writes_four_slots (s : state) (a : list Z) :
  is_u8 (seconds s) -> (4 <= length a)%nat ->
  Calculate_Stopwatch_Value s a =
    [milliseconds s; seconds s mod 10; seconds s / 10; minutes s] ++ drop 4 a /\
  length (Calculate_Stopwatch_Value s a) = length a.
Proof.
  intros Hsec Hlen.
  destruct a as [|a0 [|a1 [|a2 [|a3 rest]]]]; cbn [length] in Hlen; try lia.
  change (a0 :: a1 :: a2 :: a3 :: rest) with ([a0; a1; a2; a3] ++ rest).
  assert (Hfour : Calculate_Stopwatch_Value s ([a0; a1; a2; a3] ++ rest) =
                  Calculate_Stopwatch_Value s [a0; a1; a2; a3] ++ rest)
    by reflexivity.
  rewrite Hfour, (calculate_digits s [a0; a1; a2; a3] Hsec eq_refl).
  split; reflexivity.
Qed.

Lemma formatter_writes_four_slots_witness :
  Calculate_Stopwatch_Value (mkState 0 12 7 45 3 1 0 None) [1; 1; 1; 1; 8; 8] =
  [7; 5; 4; 3; 8; 8].
Proof.
  refine (proj1 (formatter_writes_four_slots
                   (mkState 0 12 7 45 3 1 0 None) [1; 1; 1; 1; 8; 8] _ _)).
  - unfold is_u8. fields. lia.
  - cbn [length]. lia.
Defined.

(** X14: the digit array shows the time without ambiguity: two states whose
    four-digit arrays are equal have the same milliseconds, seconds and
    minutes, whatever the arrays held before the call. *)
Theorem digit_array_determines_time (s t : state) (a b : list Z) :
  is_u8 (seconds s) -> is_u8 (seconds t) ->
  length a = 4%nat -> length b = 4%nat ->
  Calculate_Stopwatch_Value s a = Calculate_Stopwatch_Value t b ->
  milliseconds s = milliseconds t /\ seconds s = seconds t /\
  minutes s = minutes t.
Proof.
  intros Hs Ht Ha Hb.
  rewrite (calculate_digits s a Hs Ha), (calculate_digits t b Ht Hb).
  intros Heq. injection Heq as Hms Hlow Hhigh Hmn.
  repeat split; try assumption.
  rewrite (Z.div_mod (seconds s) 10), (Z.div_mod (seconds t) 10) by lia.
  now rewrite Hlow, Hhigh.
Qed.

Lemma digit_array_determines_time_witness :
  seconds (mkState 0 12 7 45 3 1 0 None) =
  seconds (mkState 9 80 7 45 3 0 1 (Some RGB_LED_RED)).
Proof.
  refine (proj1 (proj2 (digit_array_determines_time
                          (mkState 0 12 7 45 3 1 0 None)
                          (mkState 9 80 7 45 3 0 1 (Some RGB_LED_RED))
                          [0; 0; 0; 0] [5; 5; 5; 5] _ _ _ _ _)));
    try reflexivity; unfold is_u8; fields; lia.
Defined.

(** ** The main loop under interrupts *)

Lemma main_invariant (pc : loop_pc) (s : state) (a : list Z) :
  main_reachable pc s a ->
  reachable s /\ length a = 4%nat /\ Forall is_digit a.
Proof.
  induction 1 as [|e pc s a He _ (IHr & IHlen & IHdig)
                  |pc s a _ (IHr & IHlen & IHdig)].
  - split; [apply reachable_init|]. split; [reflexivity|].
    repeat constructor; unfold is_digit; lia.
  - split; [now apply reachable_step|]. split; assumption.
  - split; [exact IHr|].
    destruct (digits_of_bounded_state s (reachable_bounds s IHr))
      as (D0 & D1 & D2 & D3).
    destruct pc; cbn [main_statement fst snd];
      unfold store_milliseconds, store_seconds_low, store_seconds_high,
        store_minutes;
      (split; [now rewrite length_insert | now apply Forall_insert]).
Qed.

Lemma main_reachable_ticks (n : N) (pc : loop_pc) (s : state) (a : list Z) :
  main_reachable pc s a -> main_reachable pc (ticks n s) a.
Proof.
  intros H0. induction n as [|n IH] using N.peano_ind.
  - exact H0.
  - rewrite ticks_succ. exact (main_interrupt Timer_0A_IRQ _ _ _ I IH).
Qed.

(** Every schedule of admissible actions stays within [main_reachable]. *)
Lemma main_run_reachable (schedule : list main_action) :
  Forall action_ok schedule ->
  forall pc s a,
    main_reachable pc s a ->
    main_reachable (fst (fst (main_run schedule (pc, s, a))))
                   (snd (fst (main_run schedule (pc, s, a))))
                   (snd (main_run schedule (pc, s, a))).
Proof.
  induction 1 as [|act schedule Hact _ IH]; intros pc s a H0.
  - exact H0.
  - unfold main_run. cbn [fold_left].
    destruct act as [e|]; cbn [main_step action_ok] in *.
    + apply IH. now apply main_interrupt.
    + apply IH. now apply main_next.
Qed.

(** The loop at line 215, 9.999 s after the start button: one tick before the
    seconds go from 9 to 10. *)
Lemma main_before_tenth_second :
  main_reachable at_line_215
                 (mkState 0 99 9 9 0 1 0 (Some RGB_LED_GREEN)) [0; 0; 0; 0].
Proof.
  assert (Hs : ticks 9999 (PMOD_BTN_Handler 0x04 init_state) =
               mkState 0 99 9 9 0 1 0 (Some RGB_LED_GREEN))
    by (vm_compute; reflexivity).
  rewrite <- Hs. apply main_reachable_ticks.
  apply (main_interrupt (PMOD_BTN_IRQ 0x04)); [|apply main_entry].
  unfold event_ok, is_u8. lia.
Qed.

(** X15: whatever interrupts are served between the statements of the
    endless loop, main's array always has its four elements and each is a
    decimal digit, and the globals are in a state the handlers can reach. *)
Theorem main_array_holds_digits (pc : loop_pc) (s : state) (a : list Z) :
  main_reachable pc s a ->
  reachable s /\ length a = 4%nat /\ Forall is_digit a.
Proof. exact (main_invariant pc s a). Qed.

(** The instance: the start button, 9999 ticks, the stores of lines 215 and
    219, the tick that completes the tenth second, the store of line 223. *)
Lemma main_array_holds_digits_witness :
  reachable (mkState 0 0 0 10 0 1 0 (Some RGB_LED_GREEN)) /\
  length [9; 9; 1; 0] = 4%nat /\ Forall is_digit [9; 9; 1; 0].
Proof.
  apply (main_array_holds_digits at_line_226).
  refine (main_run_reachable
            [run_statement; run_statement; serve Timer_0A_IRQ; run_statement]
            _ _ _ _ main_before_tenth_second).
  repeat constructor.
Defined.

Lemma calculate_by_statement (s : state) (a : list Z) :
  Calculate_Stopwatch_Value s a =
  store_minutes s
    (store_seconds_high s (store_seconds_low s (store_milliseconds s a))).
Proof. reflexivity. Qed.

(** A pass of the loop that no interrupt cuts is one call of the formatter. *)
Lemma main_uninterrupted_pass (s : state) (a : list Z) :
  main_run [run_statement; run_statement; run_statement; run_statement]
           (at_line_215, s, a) =
  (at_line_215, s, Calculate_Stopwatch_Value s a).
Proof. reflexivity. Qed.

(** The tick that completes a second, away from the minute boundary. *)
Lemma tick_at_second_boundary (c sec mn rs : Z) (led : option rgb_color) :
  rs <> 1 -> 0 <= sec < 59 -> 0 <= mn <= 9 ->
  Timer_0A_Periodic_Task (mkState c 99 9 sec mn 1 rs led) =
  mkState c 0 0 (sec + 1) mn 1 rs led.
Proof.
  intros Hrs Hsec Hmn.
  assert (Hb : time_bounds (mkState c 99 9 sec mn 1 rs led))
    by (unfold time_bounds; fields; lia).
  destruct (tick_running _ Hb eq_refl Hrs) as (Hb' & Hel & Hc & Hst & Hrs' & Hled).
  apply state_eq_by_elapsed;
    [exact Hb' | | | exact Hc | exact Hst | exact Hrs' | exact Hled].
  - unfold time_bounds; fields; lia.
  - rewrite Hel. unfold elapsed, full_wrap. fields.
    rewrite Z.mod_small by lia. lia.
Qed.

(** X16: the four stores of the formatter are not atomic with respect to the
    timer. Take one pass of the loop, from line 215 back to line 215, and
    the tick that completes a second ending in 9. Served before the pass,
    the tick leaves the array the formatter gives for the state after the
    tick; served after the pass, the one for the state before. Served
    between the stores of lines 219 and 223, it leaves an array that is
    neither: the low seconds digit is the old one and the high one the new,
    ten seconds more than the stopwatch held before the tick. *)
Theorem tick_between_stores_tears_seconds (k : Z) (s : state) (a : list Z) :
  main_reachable at_line_215 s a ->
  start_stopwatch s = 1 -> reset_stopwatch s <> 1 ->
  ms_elapsed s = 99 -> milliseconds s = 9 ->
  0 <= k <= 4 -> seconds s = 10 * k + 9 ->
  let s' := Timer_0A_Periodic_Task s in
  let torn := [9; 9; k + 1; minutes s] in
  main_run [run_statement; run_statement; serve Timer_0A_IRQ;
            run_statement; run_statement] (at_line_215, s, a) =
    (at_line_215, s', torn) /\
  main_run [serve Timer_0A_IRQ; run_statement; run_statement;
            run_statement; run_statement] (at_line_215, s, a) =
    (at_line_215, s', Calculate_Stopwatch_Value s' a) /\
  main_run [run_statement; run_statement; run_statement; run_statement;
            serve Timer_0A_IRQ] (at_line_215, s, a) =
    (at_line_215, s', Calculate_Stopwatch_Value s a) /\
  Calculate_Stopwatch_Value s a = [9; 9; k; minutes s] /\
  Calculate_Stopwatch_Value s' a = [0; 0; k + 1; minutes s] /\
  torn <> Calculate_Stopwatch_Value s a /\
  torn <> Calculate_Stopwatch_Value s' a /\
  seconds s' = seconds s + 1.
Proof.
  intros H0 Hrun Hrs He Hms Hk Hsec.
  destruct (main_invariant _ _ _ H0) as (Hreach & Hlen & _).
  destruct (reachable_bounds s Hreach) as ((_ & _ & _ & Hmn) & _).
  clear H0 Hreach.
  destruct s as [c e ms sec mn st rs led]; fields. subst e ms sec st.
  destruct a as [|a0 [|a1 [|a2 [|a3 [|a4 a]]]]]; try discriminate Hlen.
  clear Hlen.
  unfold main_run.
  cbn [fold_left main_step main_statement fst snd dispatch].
  rewrite !tick_at_second_boundary by lia.
  unfold Calculate_Stopwatch_Value, store_minutes, store_seconds_high,
    store_seconds_low, store_milliseconds. fields.
  cbn [list_insert insert].
  rewrite !Z.rem_mod_nonneg, !Z.quot_div_nonneg by lia.
  replace ((10 * k + 9) mod 10) with 9 by (Z.div_mod_to_equations; lia).
  replace ((10 * k + 9) / 10) with k by (Z.div_mod_to_equations; lia).
  replace ((10 * k + 9 + 1) mod 10) with 0 by (Z.div_mod_to_equations; lia).
  replace ((10 * k + 9 + 1) / 10) with (k + 1)
    by (Z.div_mod_to_equations; lia).
  rewrite !u8_small by (unfold is_u8; lia).
  repeat match goal with |- _ /\ _ => split end;
    try reflexivity; intros Heq; injection Heq; lia.
Qed.

Lemma tick_between_stores_tears_seconds_witness :
  main_run [run_statement; run_statement; serve Timer_0A_IRQ;
            run_statement; run_statement]
           (at_line_215, mkState 0 99 9 9 0 1 0 (Some RGB_LED_GREEN),
            [0; 0; 0; 0]) =
  (at_line_215, mkState 0 0 0 10 0 1 0 (Some RGB_LED_GREEN), [9; 9; 1; 0]).
Proof.
  refine (proj1 (tick_between_stores_tears_seconds
                   0 (mkState 0 99 9 9 0 1 0 (Some RGB_LED_GREEN)) [0; 0; 0; 0]
                   main_before_tenth_second eq_refl _ eq_refl eq_refl _
                   eq_refl)).
  - cbn [reset_stopwatch]. lia.
  - lia.
Defined.

Lemma reachable_well_formed_witness :
  flags_ok (Timer_0A_Periodic_Task
              (PMOD_BTN_Handler 0x10 (PMOD_BTN_Handler 0x04 init_state))).
Proof.
  refine (proj2 (reachable_well_formed _ _)). auto with stopwatch.
Defined.
